From Stdlib Require Import ZArith Lia Bool QArith Qcanon.
From stdpp Require Import base option list numbers.

Local Open Scope Z_scope.

(** * Machine integers and raw memory *)

Definition k_cBitsForSizeTCore : Z := 64.
Definition k_cDimensionsMax : Z := k_cBitsForSizeTCore - 1.

(** [size_t] arithmetic wraps around modulo [2 ^ 64]; [ptrdiff_t] is the
    two's complement reading of the same 64 bits. *)
Definition size_t (z : Z) : Z := z mod 2 ^ k_cBitsForSizeTCore.
Definition ptrdiff_t (z : Z) : Z :=
  (z + 2 ^ (k_cBitsForSizeTCore - 1)) mod 2 ^ k_cBitsForSizeTCore
  - 2 ^ (k_cBitsForSizeTCore - 1).

(** A C array is a list; a pointer into it is an integer offset, which may
    legally sit one before the first element.  Dereferencing outside the
    block has no defined behaviour: [load] and [store] answer [None]. *)
Definition load {A} (a : list A) (i : Z) : option A :=
  if i <? 0 then None else a !! Z.to_nat i.
Definition store {A} (a : list A) (i : Z) (x : A) : option (list A) :=
  if (0 <=? i) && (i <? Z.of_nat (length a)) then Some (<[Z.to_nat i := x]> a) else None.

(** [realloc] keeps the old contents and leaves the new tail uninitialised;
    [uninit] stands for whatever the allocator left there. *)
Definition realloc {A} (uninit : nat -> A) (a : list A) (n : Z) : list A :=
  take (Z.to_nat n) a ++ (uninit <$> seq (length a) (Z.to_nat n - length a)).

(** * SegmentedRegion.h *)

Section SegmentedRegion.
Context {TValues : Type}.
Variable uninitValue : nat -> TValues.
Variable uninitDivision : nat -> Z.
(** Allocator oracle: [realloc_fails n] says that a request for [n] elements
    returns [nullptr]. *)
Variable realloc_fails : Z -> bool.

Record DimensionInfo := {
  cDivisions : Z;
  aDivisions : list Z;
  cDivisionCapacity : Z }.

Record SegmentedRegionCore := {
  m_cValueCapacity : Z;
  m_cVectorLength : Z;
  m_cDimensionsMax : Z;
  m_cDimensions : Z;
  m_aValues : list TValues;
  m_bExpanded : bool;
  m_aDimensions : list DimensionInfo }.

Definition set_aValues (t : SegmentedRegionCore) (a : list TValues) (c : Z) : SegmentedRegionCore :=
  {| m_cValueCapacity := c; m_cVectorLength := m_cVectorLength t;
     m_cDimensionsMax := m_cDimensionsMax t; m_cDimensions := m_cDimensions t;
     m_aValues := a; m_bExpanded := m_bExpanded t; m_aDimensions := m_aDimensions t |}.
Definition set_bExpanded (t : SegmentedRegionCore) (b : bool) : SegmentedRegionCore :=
  {| m_cValueCapacity := m_cValueCapacity t; m_cVectorLength := m_cVectorLength t;
     m_cDimensionsMax := m_cDimensionsMax t; m_cDimensions := m_cDimensions t;
     m_aValues := m_aValues t; m_bExpanded := b; m_aDimensions := m_aDimensions t |}.
Definition set_aDimensions (t : SegmentedRegionCore) (d : list DimensionInfo) : SegmentedRegionCore :=
  {| m_cValueCapacity := m_cValueCapacity t; m_cVectorLength := m_cVectorLength t;
     m_cDimensionsMax := m_cDimensionsMax t; m_cDimensions := m_cDimensions t;
     m_aValues := m_aValues t; m_bExpanded := m_bExpanded t; m_aDimensions := d |}.

(** Functions returning [bool] in the source return [true] on failure.  The
    model returns the flag together with the object as it is left. *)

Definition SetCountDivisions (t : SegmentedRegionCore) (iDimension cDivisions' : Z)
  : option (bool * SegmentedRegionCore) :=
  pDimension ← load (m_aDimensions t) iDimension;
  if cDivisionCapacity pDimension <? cDivisions' then
    let cNewDivisionCapacity := size_t (cDivisions' + Z.shiftr cDivisions' 1) in
    if realloc_fails cNewDivisionCapacity then Some (true, t)
    else
      aDims ← store (m_aDimensions t) iDimension
        {| cDivisions := cDivisions';
           aDivisions := realloc uninitDivision (aDivisions pDimension) cNewDivisionCapacity;
           cDivisionCapacity := cNewDivisionCapacity |};
      Some (false, set_aDimensions t aDims)
  else
    aDims ← store (m_aDimensions t) iDimension
      {| cDivisions := cDivisions';
         aDivisions := aDivisions pDimension;
         cDivisionCapacity := cDivisionCapacity pDimension |};
    Some (false, set_aDimensions t aDims).

Definition EnsureValueCapacity (t : SegmentedRegionCore) (cValues : Z)
  : bool * SegmentedRegionCore :=
  if m_cValueCapacity t <? cValues then
    let cNewValueCapacity := size_t (cValues + Z.shiftr cValues 1) in
    if realloc_fails cNewValueCapacity then (true, t)
    else (false, set_aValues t (realloc uninitValue (m_aValues t) cNewValueCapacity) cNewValueCapacity)
  else (false, t).

(** ** GetValue: the tensor read as a function of bin values *)

(** Binary search of the non-expanded branch; the result is [middle] at the
    label [no_check]. *)
Fixpoint GetValueSearch (fuel : nat) (aDiv : list Z) (d low high : Z) : option Z :=
  match fuel with
  | O => None
  | S fuel' =>
    let middle := Z.shiftr (low + high) 1 in
    midVal ← load aDiv middle;
    if midVal =? d then Some middle
    else
      let high' := if midVal <? d then high else middle - 1 in
      let low' := if midVal <? d then middle + 1 else low in
      if low' <=? high' then GetValueSearch fuel' aDiv d low' high'
      else Some (if midVal <? d then middle + 1 else middle)
  end.

Fixpoint GetValueCompact (dims : list DimensionInfo) (aDivisionValue : list Z)
  (iValue valueMultiple : Z) : option Z :=
  match dims, aDivisionValue with
  | pDimension :: dims', d :: rest =>
    let cDiv := cDivisions pDimension in
    if negb (cDiv =? 0) then
      middle ← GetValueSearch (Z.to_nat cDiv) (aDivisions pDimension) d 0 (cDiv - 1);
      let iValue' := size_t (iValue + size_t (middle * valueMultiple)) in
      let valueMultiple' := size_t (valueMultiple * (cDiv + 1)) in
      match rest with
      | [] => Some iValue'
      | _ => GetValueCompact dims' rest iValue' valueMultiple'
      end
    else
      match rest with
      | [] => Some iValue
      | _ => GetValueCompact dims' rest iValue valueMultiple
      end
  | _, _ => None
  end.

Fixpoint GetValueExpanded (dims : list DimensionInfo) (aDivisionValue : list Z)
  (iValue valueMultiple : Z) : option Z :=
  match aDivisionValue with
  | d :: rest =>
    let iValue' := size_t (iValue + size_t (d * valueMultiple)) in
    match rest with
    | [] => Some iValue'
    | _ =>
      match dims with
      | pDimension :: dims' =>
        GetValueExpanded dims' rest iValue' (size_t (valueMultiple * (cDivisions pDimension + 1)))
      | [] => None
      end
    end
  | [] => None
  end.

(** [GetValue] answers the offset of the cell inside [m_aValues]; the point
    [aDivisionValue] must have exactly [m_cDimensions] coordinates. *)
Definition GetValue (t : SegmentedRegionCore) (aDivisionValue : list Z) : option Z :=
  if negb (Z.of_nat (length aDivisionValue) =? m_cDimensions t) then None
  else if m_bExpanded t then GetValueExpanded (m_aDimensions t) aDivisionValue 0 (m_cVectorLength t)
  else GetValueCompact (m_aDimensions t) aDivisionValue 0 (m_cVectorLength t).

(** The tensor as a piecewise-constant function: component [iVector] of the
    value at a point. *)
Definition ReadValue (t : SegmentedRegionCore) (aDivisionValue : list Z) (iVector : Z)
  : option TValues :=
  iValue ← GetValue t aDivisionValue;
  load (m_aValues t) (iValue + iVector).

(** ** Expand *)

Record DimensionInfoStackExpand := {
  pDivision1 : Z;     (* offset inside the dimension's aDivisions *)
  iDivision2 : Z;
  cNewDivisions : Z }.

Fixpoint ExpandInit (dims : list DimensionInfo) (acDivisionsPlusOne : list Z)
  (cValues1 cNewValues : Z) : option (list DimensionInfoStackExpand * Z * Z) :=
  match dims with
  | [] => Some ([], cValues1, cNewValues)
  | pDimensionFirst1 :: dims' =>
    match acDivisionsPlusOne with
    | [] => None
    | cDivisionsPlusOne :: ac' =>
      let cDivisions1 := cDivisions pDimensionFirst1 in
      let cValues1' := size_t (cValues1 * size_t (cDivisions1 + 1)) in
      let cNewValues' := size_t (cNewValues * cDivisionsPlusOne) in
      let maxDivision := size_t (cDivisionsPlusOne - 2) in
      '(stack, c1, cn) ← ExpandInit dims' ac' cValues1' cNewValues';
      Some ({| pDivision1 := cDivisions1 - 1;
               iDivision2 := ptrdiff_t maxDivision;
               cNewDivisions := maxDivision |} :: stack, c1, cn)
    end
  end.

(** The [do ... while(pValueTopEnd != pValueTop)] loop that moves one cell. *)
Fixpoint ExpandCopy (fuel : nat) (aValues : list TValues)
  (pValue1Move pValueTop pValueTopEnd : Z) : option (list TValues * Z) :=
  match fuel with
  | O => None
  | S fuel' =>
    v ← load aValues pValue1Move;
    aValues' ← store aValues pValueTop v;
    let pValue1Move' := pValue1Move - 1 in
    let pValueTop' := pValueTop - 1 in
    if pValueTopEnd =? pValueTop' then Some (aValues', pValueTop')
    else ExpandCopy fuel' aValues' pValue1Move' pValueTop' pValueTopEnd
  end.

(** The inner [while(true)] over the dimension stack: step to the previous
    cell of the new grid and keep [pValue1] on the old cell covering it. *)
Fixpoint ExpandNext (stack : list DimensionInfoStackExpand) (dims : list DimensionInfo)
  (pValue1 multiplication1 : Z) : option (list DimensionInfoStackExpand * Z) :=
  match stack, dims with
  | s :: stack', pDimensionSecond1 :: dims' =>
    if 0 <=? pDivision1 s then
      d1 ← load (aDivisions pDimensionSecond1) (pDivision1 s);
      let change1 := if iDivision2 s <=? d1 then 1 else 0 in
      Some ({| pDivision1 := pDivision1 s - change1;
               iDivision2 := iDivision2 s - 1;
               cNewDivisions := cNewDivisions s |} :: stack',
            pValue1 - change1 * multiplication1)
    else if 0 <=? iDivision2 s then
      Some ({| pDivision1 := pDivision1 s;
               iDivision2 := iDivision2 s - 1;
               cNewDivisions := cNewDivisions s |} :: stack', pValue1)
    else
      let pValue1a := pValue1 - multiplication1 in
      let cDivisions1 := cDivisions pDimensionSecond1 in
      let multiplication1' := size_t (multiplication1 * size_t (1 + cDivisions1)) in
      let pValue1b := pValue1a + multiplication1' in
      '(stack'', pValue1') ← ExpandNext stack' dims' pValue1b multiplication1';
      Some ({| pDivision1 := cDivisions1 - 1;
               iDivision2 := ptrdiff_t (cNewDivisions s);
               cNewDivisions := cNewDivisions s |} :: stack'', pValue1')
  | _, _ => None
  end.

Fixpoint ExpandLoop (fuel : nat) (cVectorLength : Z) (dims : list DimensionInfo)
  (stack : list DimensionInfoStackExpand) (aValues : list TValues)
  (pValue1 pValueTop : Z) : option (list TValues) :=
  match fuel with
  | O => None
  | S fuel' =>
    '(aValues', pValueTop') ←
      ExpandCopy (Z.to_nat cVectorLength) aValues pValue1 pValueTop (pValueTop - cVectorLength);
    if pValueTop' =? -1 then Some aValues'
    else
      '(stack', pValue1') ← ExpandNext stack dims pValue1 cVectorLength;
      ExpandLoop fuel' cVectorLength dims stack' aValues' pValue1' pValueTop'
  end.

(** The closing [for] loop that rewrites the cut arrays. *)
Fixpoint ExpandDivisions (n : nat) (iDimension : Z) (acDivisionsPlusOne : list Z)
  (t : SegmentedRegionCore) : option (bool * SegmentedRegionCore) :=
  match n with
  | O => Some (false, t)
  | S n' =>
    cDivisionsPlusOne ← load acDivisionsPlusOne iDimension;
    pDimension ← load (m_aDimensions t) iDimension;
    let cDiv := size_t (cDivisionsPlusOne - 1) in
    if cDiv =? cDivisions pDimension then
      ExpandDivisions n' (iDimension + 1) acDivisionsPlusOne t
    else
      '(bFail, t1) ← SetCountDivisions t iDimension cDiv;
      if bFail : bool then Some (true, t1)
      else
        pDimension' ← load (m_aDimensions t1) iDimension;
        if Z.of_nat (length (aDivisions pDimension')) <? cDiv then None
        else
          aDims ← store (m_aDimensions t1) iDimension
            {| cDivisions := cDivisions pDimension';
               aDivisions := seqZ 0 cDiv ++ drop (Z.to_nat cDiv) (aDivisions pDimension');
               cDivisionCapacity := cDivisionCapacity pDimension' |};
          ExpandDivisions n' (iDimension + 1) acDivisionsPlusOne (set_aDimensions t1 aDims)
  end.

Definition Expand (t : SegmentedRegionCore) (acDivisionsPlusOne : list Z)
  : option (bool * SegmentedRegionCore) :=
  if m_bExpanded t then Some (false, t)
  else if m_cDimensions t <=? 0 then None
  else if Z.of_nat (length (m_aDimensions t)) <? m_cDimensions t then None
  else
    let dims := take (Z.to_nat (m_cDimensions t)) (m_aDimensions t) in
    '(stack, cValues1, cNewValues) ← ExpandInit dims acDivisionsPlusOne 1 1;
    let r := EnsureValueCapacity t (size_t (cNewValues * m_cVectorLength t)) in
    if fst r then Some (true, snd r)
    else
      let t1 := snd r in
      let pValue1 := size_t (m_cVectorLength t * cValues1) - 1 in
      let pValueTop := size_t (m_cVectorLength t * cNewValues) - 1 in
      aValues ← ExpandLoop (Z.to_nat cNewValues) (m_cVectorLength t) dims stack
                 (m_aValues t1) pValue1 pValueTop;
      let t2 := set_aValues t1 aValues (m_cValueCapacity t1) in
      '(bFail, t3) ← ExpandDivisions (Z.to_nat (m_cDimensions t)) 0 acDivisionsPlusOne t2;
      if bFail : bool then Some (true, t3)
      else Some (false, set_bExpanded t3 true).

(** ** Add *)

Variable plus : TValues -> TValues -> TValues.

Record DimensionInfoStack := {
  pDivision1' : Z;    (* offset inside this tensor's aDivisions *)
  pDivision2' : Z;    (* offset inside rhs's aDivisions *)
  cNewDivisions' : Z }.

(** Forward merge scan that counts the union of two cut arrays. *)
Fixpoint AddCountDivisions (fuel : nat) (aDiv1 aDiv2 : list Z)
  (p1Cur p1End p2Cur p2End cNewSingleDimensionDivisions : Z) : option Z :=
  match fuel with
  | O => None
  | S fuel' =>
    if p2End =? p2Cur then Some (size_t (cNewSingleDimensionDivisions + (p1End - p1Cur)))
    else if p1End =? p1Cur then Some (size_t (cNewSingleDimensionDivisions + (p2End - p2Cur)))
    else
      d1 ← load aDiv1 p1Cur;
      d2 ← load aDiv2 p2Cur;
      AddCountDivisions fuel' aDiv1 aDiv2
        (if d1 <=? d2 then p1Cur + 1 else p1Cur) p1End
        (if d2 <=? d1 then p2Cur + 1 else p2Cur) p2End
        (size_t (cNewSingleDimensionDivisions + 1))
  end.

Fixpoint AddInit (dims1 dims2 : list DimensionInfo) (cValues1 cValues2 cNewValues : Z)
  : option (list DimensionInfoStack * Z * Z * Z) :=
  match dims1 with
  | [] => Some ([], cValues1, cValues2, cNewValues)
  | pDimensionFirst1 :: dims1' =>
    match dims2 with
    | [] => None
    | pDimensionFirst2 :: dims2' =>
      let cDivisions1 := cDivisions pDimensionFirst1 in
      let cDivisions2 := cDivisions pDimensionFirst2 in
      let cValues1' := size_t (cValues1 * size_t (cDivisions1 + 1)) in
      let cValues2' := size_t (cValues2 * size_t (cDivisions2 + 1)) in
      cNewSingleDimensionDivisions ←
        AddCountDivisions (S (Z.to_nat cDivisions1 + Z.to_nat cDivisions2))
          (aDivisions pDimensionFirst1) (aDivisions pDimensionFirst2)
          0 cDivisions1 0 cDivisions2 0;
      let cNewValues' := size_t (cNewValues * size_t (cNewSingleDimensionDivisions + 1)) in
      '(stack, c1, c2, cn) ← AddInit dims1' dims2' cValues1' cValues2' cNewValues';
      Some ({| pDivision1' := cDivisions1 - 1;
               pDivision2' := cDivisions2 - 1;
               cNewDivisions' := cNewSingleDimensionDivisions |} :: stack, c1, c2, cn)
    end
  end.

(** The [do ... while(pValueTopEnd != pValueTop)] loop that writes one cell of
    the sum. *)
Fixpoint AddCopy (fuel : nat) (aValues aValues2 : list TValues)
  (pValue1Move pValue2Move pValueTop pValueTopEnd : Z) : option (list TValues * Z) :=
  match fuel with
  | O => None
  | S fuel' =>
    v1 ← load aValues pValue1Move;
    v2 ← load aValues2 pValue2Move;
    aValues' ← store aValues pValueTop (plus v1 v2);
    let pValueTop' := pValueTop - 1 in
    if pValueTopEnd =? pValueTop' then Some (aValues', pValueTop')
    else AddCopy fuel' aValues' aValues2 (pValue1Move - 1) (pValue2Move - 1) pValueTop' pValueTopEnd
  end.

Fixpoint AddNext (stack : list DimensionInfoStack) (dims1 dims2 : list DimensionInfo)
  (pValue1 pValue2 multiplication1 multiplication2 : Z)
  : option (list DimensionInfoStack * Z * Z) :=
  match stack, dims1, dims2 with
  | s :: stack', pDimensionSecond1 :: dims1', pDimensionSecond2 :: dims2' =>
    if 0 <=? pDivision1' s then
      if 0 <=? pDivision2' s then
        d1 ← load (aDivisions pDimensionSecond1) (pDivision1' s);
        d2 ← load (aDivisions pDimensionSecond2) (pDivision2' s);
        let change1 := if d2 <=? d1 then 1 else 0 in
        let change2 := if d1 <=? d2 then 1 else 0 in
        Some ({| pDivision1' := pDivision1' s - change1;
                 pDivision2' := pDivision2' s - change2;
                 cNewDivisions' := cNewDivisions' s |} :: stack',
              pValue1 - change1 * multiplication1,
              pValue2 - change2 * multiplication2)
      else
        Some ({| pDivision1' := pDivision1' s - 1;
                 pDivision2' := pDivision2' s;
                 cNewDivisions' := cNewDivisions' s |} :: stack',
              pValue1 - multiplication1, pValue2)
    else
      if 0 <=? pDivision2' s then
        Some ({| pDivision1' := pDivision1' s;
                 pDivision2' := pDivision2' s - 1;
                 cNewDivisions' := cNewDivisions' s |} :: stack',
              pValue1, pValue2 - multiplication2)
      else
        let pValue1a := pValue1 - multiplication1 in
        let pValue2a := pValue2 - multiplication2 in
        let cDivisions1 := cDivisions pDimensionSecond1 in
        let cDivisions2 := cDivisions pDimensionSecond2 in
        let multiplication1' := size_t (multiplication1 * size_t (1 + cDivisions1)) in
        let multiplication2' := size_t (multiplication2 * size_t (1 + cDivisions2)) in
        let pValue1b := pValue1a + multiplication1' in
        let pValue2b := pValue2a + multiplication2' in
        '(stack'', pValue1', pValue2') ←
          AddNext stack' dims1' dims2' pValue1b pValue2b multiplication1' multiplication2';
        Some ({| pDivision1' := cDivisions1 - 1;
                 pDivision2' := cDivisions2 - 1;
                 cNewDivisions' := cNewDivisions' s |} :: stack'', pValue1', pValue2')
  | _, _, _ => None
  end.

Fixpoint AddLoop (fuel : nat) (cVectorLength : Z) (dims1 dims2 : list DimensionInfo)
  (stack : list DimensionInfoStack) (aValues aValues2 : list TValues)
  (pValue1 pValue2 pValueTop : Z) : option (list TValues) :=
  match fuel with
  | O => None
  | S fuel' =>
    '(aValues', pValueTop') ←
      AddCopy (Z.to_nat cVectorLength) aValues aValues2 pValue1 pValue2 pValueTop
              (pValueTop - cVectorLength);
    if pValueTop' =? -1 then Some aValues'
    else
      '(stack', pValue1', pValue2') ←
        AddNext stack dims1 dims2 pValue1 pValue2 cVectorLength cVectorLength;
      AddLoop fuel' cVectorLength dims1 dims2 stack' aValues' aValues2 pValue1' pValue2' pValueTop'
  end.

(** Backward merge of the two cut arrays into this tensor's own array. *)
Fixpoint AddMergeDivisions (fuel : nat) (aDiv1 aDiv2 : list Z) (p1Cur p2Cur pTopCur : Z)
  : option (list Z) :=
  match fuel with
  | O => None
  | S fuel' =>
    if pTopCur =? p1Cur then Some aDiv1
    else if pTopCur =? p2Cur then
      (* memcpy of the first pTopCur + 1 cuts of rhs *)
      if (0 <=? pTopCur + 1) && (pTopCur + 1 <=? Z.of_nat (length aDiv1))
         && (pTopCur + 1 <=? Z.of_nat (length aDiv2))
      then Some (take (Z.to_nat (pTopCur + 1)) aDiv2 ++ drop (Z.to_nat (pTopCur + 1)) aDiv1)
      else None
    else
      d1 ← load aDiv1 p1Cur;
      d2 ← load aDiv2 p2Cur;
      let p1Cur' := if d2 <=? d1 then p1Cur - 1 else p1Cur in
      let p2Cur' := if d1 <=? d2 then p2Cur - 1 else p2Cur in
      let d := if d1 <=? d2 then d2 else d1 in
      aDiv1' ← store aDiv1 pTopCur d;
      AddMergeDivisions fuel' aDiv1' aDiv2 p1Cur' p2Cur' (pTopCur - 1)
  end.

Fixpoint AddDivisions (stack : list DimensionInfoStack) (dims2 : list DimensionInfo)
  (iDimension : Z) (t : SegmentedRegionCore) : option (bool * SegmentedRegionCore) :=
  match stack, dims2 with
  | pDimensionInfoStackCur :: stack', pDimension2Cur :: dims2' =>
    let cNewDivisions := cNewDivisions' pDimensionInfoStackCur in
    pDimension1Cur ← load (m_aDimensions t) iDimension;
    let cOriginalDivisionsBeforeSetting := cDivisions pDimension1Cur in
    '(bFail, t1) ← SetCountDivisions t iDimension cNewDivisions;
    if bFail : bool then Some (true, t1)
    else
      pDimension1Cur' ← load (m_aDimensions t1) iDimension;
      aDiv ← AddMergeDivisions (S (Z.to_nat cNewDivisions))
               (aDivisions pDimension1Cur') (aDivisions pDimension2Cur)
               (ptrdiff_t cOriginalDivisionsBeforeSetting - 1)
               (ptrdiff_t (cDivisions pDimension2Cur) - 1)
               (ptrdiff_t cNewDivisions - 1);
      aDims ← store (m_aDimensions t1) iDimension
        {| cDivisions := cDivisions pDimension1Cur';
           aDivisions := aDiv;
           cDivisionCapacity := cDivisionCapacity pDimension1Cur' |};
      AddDivisions stack' dims2' (iDimension + 1) (set_aDimensions t1 aDims)
  | [], _ => Some (false, t)
  | _, [] => None
  end.

Definition Add (t rhs : SegmentedRegionCore) : option (bool * SegmentedRegionCore) :=
  if m_cDimensions t <=? 0 then None
  else if Z.of_nat (length (m_aDimensions t)) <? m_cDimensions t then None
  else if Z.of_nat (length (m_aDimensions rhs)) <? m_cDimensions t then None
  else
    let dims1 := take (Z.to_nat (m_cDimensions t)) (m_aDimensions t) in
    let dims2 := take (Z.to_nat (m_cDimensions t)) (m_aDimensions rhs) in
    '(stack, cValues1, cValues2, cNewValues) ← AddInit dims1 dims2 1 1 1;
    let r := EnsureValueCapacity t (size_t (cNewValues * m_cVectorLength t)) in
    if fst r then Some (true, snd r)
    else
      let t1 := snd r in
      let pValue2 := size_t (m_cVectorLength t * cValues2) - 1 in
      let pValue1 := size_t (m_cVectorLength t * cValues1) - 1 in
      let pValueTop := size_t (m_cVectorLength t * cNewValues) - 1 in
      aValues ← AddLoop (Z.to_nat cNewValues) (m_cVectorLength t) dims1 dims2 stack
                 (m_aValues t1) (m_aValues rhs) pValue1 pValue2 pValueTop;
      let t2 := set_aValues t1 aValues (m_cValueCapacity t1) in
      AddDivisions stack dims2 0 t2.

End SegmentedRegion.

(** * BinnedBucket.h (not part of the sources) *)

Record PredictionStatistics := {
  sumResidualError : Qc;
  sumDenominator : Qc }.

Record BinnedBucket := {
  cCasesInBucket : Z;
  aPredictionStatistics : list PredictionStatistics }.

Definition PredictionStatistics_add (x y : PredictionStatistics) : PredictionStatistics :=
  {| sumResidualError := (sumResidualError x + sumResidualError y)%Qc;
     sumDenominator := (sumDenominator x + sumDenominator y)%Qc |}.
Definition PredictionStatistics_sub (x y : PredictionStatistics) : PredictionStatistics :=
  {| sumResidualError := (sumResidualError x - sumResidualError y)%Qc;
     sumDenominator := (sumDenominator x - sumDenominator y)%Qc |}.

Definition BinnedBucket_Zero (cVectorLength : Z) : BinnedBucket :=
  {| cCasesInBucket := 0;
     aPredictionStatistics :=
       replicate (Z.to_nat cVectorLength) {| sumResidualError := 0%Qc; sumDenominator := 0%Qc |} |}.
Definition BinnedBucket_Add (a b : BinnedBucket) : BinnedBucket :=
  {| cCasesInBucket := size_t (cCasesInBucket a + cCasesInBucket b);
     aPredictionStatistics :=
       zip_with PredictionStatistics_add (aPredictionStatistics a) (aPredictionStatistics b) |}.
Definition BinnedBucket_Subtract (a b : BinnedBucket) : BinnedBucket :=
  {| cCasesInBucket := size_t (cCasesInBucket a - cCasesInBucket b);
     aPredictionStatistics :=
       zip_with PredictionStatistics_sub (aPredictionStatistics a) (aPredictionStatistics b) |}.

(** * MultiDimensionalTraining.h *)

Section Totals.
Context {B : Type}.
Variables (bZero : B) (bAdd bSubtract : B -> B -> B).

Record FastTotalState2 := {
  pDimensionalCur : Z;
  pDimensionalWrap : Z;
  pDimensionalFirst : Z;
  iCur : Z;
  cStates : Z }.

Definition set_pDimensionalCur (s : FastTotalState2) (p : Z) : FastTotalState2 :=
  {| pDimensionalCur := p; pDimensionalWrap := pDimensionalWrap s;
     pDimensionalFirst := pDimensionalFirst s; iCur := iCur s; cStates := cStates s |}.
Definition set_iCur (s : FastTotalState2) (i : Z) : FastTotalState2 :=
  {| pDimensionalCur := pDimensionalCur s; pDimensionalWrap := pDimensionalWrap s;
     pDimensionalFirst := pDimensionalFirst s; iCur := i; cStates := cStates s |}.

Fixpoint BuildFastTotalsInit (aStates : list Z) (pDimensionalBucket multiply : Z)
  : list FastTotalState2 :=
  match aStates with
  | [] => []
  | cStates0 :: rest =>
    let pNext := pDimensionalBucket + multiply in
    {| pDimensionalCur := pDimensionalBucket; pDimensionalWrap := pNext;
       pDimensionalFirst := pDimensionalBucket; iCur := 0; cStates := cStates0 |}
    :: BuildFastTotalsInit rest pNext (size_t (multiply * cStates0))
  end.

(** [for(iDimension = cDimensions - 1; 0 <= iDimension; --iDimension)]:
    [n] is [iDimension + 1]. *)
Fixpoint BuildFastTotalsFold (n : nat) (fastTotalState : list FastTotalState2)
  (a : list B) (pAddPrev : Z) : option (list FastTotalState2 * list B * Z) :=
  match n with
  | O => Some (fastTotalState, a, pAddPrev)
  | S iDimension =>
    s ← fastTotalState !! iDimension;
    let pAddTo := pDimensionalCur s in
    x ← load a pAddTo;
    y ← load a pAddPrev;
    a' ← store a pAddTo (bAdd x y);
    let pAddTo1 := pAddTo + 1 in
    let pAddTo2 := if pAddTo1 =? pDimensionalWrap s then pDimensionalFirst s else pAddTo1 in
    BuildFastTotalsFold iDimension (<[iDimension := set_pDimensionalCur s pAddTo2]> fastTotalState)
      a' pAddTo
  end.

(** [memset] of the buckets in [first, wrap). *)
Definition zero_range (a : list B) (first wrap : Z) : option (list B) :=
  if (0 <=? first) && (first <=? wrap) && (wrap <=? Z.of_nat (length a)) then
    Some (take (Z.to_nat first) a ++ replicate (Z.to_nat (wrap - first)) bZero
          ++ drop (Z.to_nat wrap) a)
  else None.

(** The odometer at the end of the outer loop; the first component is [None]
    when the function returns. *)
Fixpoint BuildFastTotalsAdvance (fastTotalState : list FastTotalState2) (a : list B)
  : option (option (list FastTotalState2) * list B) :=
  match fastTotalState with
  | [] => Some (None, a)
  | s :: rest =>
    let iCur' := iCur s + 1 in
    if negb (cStates s =? iCur') then Some (Some (set_iCur s iCur' :: rest), a)
    else
      a' ← zero_range a (pDimensionalFirst s) (pDimensionalWrap s);
      '(rest', a'') ← BuildFastTotalsAdvance rest a';
      Some (match rest' with
            | Some r => Some (set_iCur s 0 :: r)
            | None => None
            end, a'')
  end.

Fixpoint BuildFastTotalsLoop (fuel : nat) (fastTotalState : list FastTotalState2)
  (a : list B) (pBinnedBucket : Z) : option (list B) :=
  match fuel with
  | O => None
  | S fuel' =>
    '(st, a1, pAddPrev) ←
      BuildFastTotalsFold (length fastTotalState) fastTotalState a pBinnedBucket;
    v ← load a1 pAddPrev;
    a2 ← store a1 pBinnedBucket v;
    '(st', a3) ← BuildFastTotalsAdvance st a2;
    match st' with
    | None => Some a3
    | Some st'' => BuildFastTotalsLoop fuel' st'' a3 (pBinnedBucket + 1)
    end
  end.

(** [aStates] lists [m_cStates] of the combination's attributes. *)
Definition BuildFastTotals (aBinnedBuckets : list B) (aStates : list Z) (cTotalBuckets : Z)
  : option (list B) :=
  match aStates with
  | [] => None
  | _ =>
    BuildFastTotalsLoop (S (Z.to_nat cTotalBuckets))
      (BuildFastTotalsInit aStates cTotalBuckets 1) aBinnedBuckets 0
  end.

(** ** GetTotals *)

Record TotalsDimension := {
  cIncrement : Z;
  cLast : Z }.

Fixpoint GetTotalsOffset (aStates aiPoint : list Z) (startingOffset multipleTotalInitialize : Z)
  : option Z :=
  match aStates with
  | [] => Some startingOffset
  | cStates0 :: rest =>
    match aiPoint with
    | [] => None
    | iPoint :: aiPoint' =>
      GetTotalsOffset rest aiPoint'
        (size_t (startingOffset + size_t (multipleTotalInitialize * iPoint)))
        (size_t (multipleTotalInitialize * cStates0))
    end
  end.

Fixpoint GetTotalsInit (aStates aiPoint : list Z) (directionVectorDestroy : Z)
  (startingOffset multipleTotalInitialize : Z) : option (list TotalsDimension * Z) :=
  match aStates with
  | [] => Some ([], startingOffset)
  | cStates0 :: rest =>
    match aiPoint with
    | [] => None
    | iPoint :: aiPoint' =>
      if negb (Z.land 1 directionVectorDestroy =? 0) then
        let cLast0 := size_t (multipleTotalInitialize * size_t (cStates0 - 1)) in
        '(tds, so) ← GetTotalsInit rest aiPoint' (Z.shiftr directionVectorDestroy 1)
                       startingOffset (size_t (multipleTotalInitialize + cLast0));
        Some ({| cIncrement := size_t (multipleTotalInitialize * iPoint); cLast := cLast0 |} :: tds, so)
      else
        GetTotalsInit rest aiPoint' (Z.shiftr directionVectorDestroy 1)
          (size_t (startingOffset + size_t (multipleTotalInitialize * iPoint)))
          (size_t (multipleTotalInitialize * cStates0))
    end
  end.

(** The inner [do ... while] over the high dimensions of one permutation. *)
Fixpoint GetTotalsPermute (totalsDimension : list TotalsDimension)
  (offsetPointer evenOdd permuteVectorDestroy : Z) : Z * Z :=
  match totalsDimension with
  | [] => (offsetPointer, evenOdd)
  | td :: rest =>
    GetTotalsPermute rest
      (offsetPointer + (if negb (Z.land 1 permuteVectorDestroy =? 0) then cLast td else cIncrement td))
      (Z.lxor evenOdd permuteVectorDestroy)
      (Z.shiftr permuteVectorDestroy 1)
  end.

Fixpoint GetTotalsLoop (fuel : nat) (aBinnedBuckets : list B)
  (totalsDimension : list TotalsDimension) (startingOffset cAllBits permuteVector : Z)
  (ret : B) : option B :=
  match fuel with
  | O => None
  | S fuel' =>
    let '(offsetPointer, evenOdd) :=
      GetTotalsPermute totalsDimension (ptrdiff_t startingOffset) cAllBits permuteVector in
    pBinnedBucket ← load aBinnedBuckets offsetPointer;
    let ret' := if negb (Z.land 1 evenOdd =? 0) then bSubtract ret pBinnedBucket
                else bAdd ret pBinnedBucket in
    let permuteVector' := size_t (permuteVector + 1) in
    if Z.shiftr permuteVector' cAllBits =? 0
    then GetTotalsLoop fuel' aBinnedBuckets totalsDimension startingOffset cAllBits permuteVector' ret'
    else Some ret'
  end.

Definition GetTotals (aBinnedBuckets : list B) (aStates aiPoint : list Z) (directionVector : Z)
  : option B :=
  match aStates with
  | [] => None
  | _ =>
    if directionVector =? 0 then
      startingOffset ← GetTotalsOffset aStates aiPoint 0 1;
      load aBinnedBuckets startingOffset
    else
      '(totalsDimension, startingOffset) ← GetTotalsInit aStates aiPoint directionVector 0 1;
      match totalsDimension with
      | [] => None   (* the permutation loop reads totalsDimension[0] unconditionally *)
      | _ =>
        let cAllBits := Z.of_nat (length totalsDimension) in
        GetTotalsLoop (2 ^ length totalsDimension) aBinnedBuckets totalsDimension
          startingOffset cAllBits 0 bZero
      end
  end.

End Totals.


(** ** The pair splitter *)

(** [FractionalDataType] as far as the splitter uses it: exact rationals and
    the initial value minus infinity of the running maxima. *)
Inductive FractionalDataType :=
| NegInfinity
| Finite (q : Qc).

Definition Qcltb (x y : Qc) : bool :=
  match (x ?= y)%Qc with Lt => true | _ => false end.
Definition Fplus (a b : FractionalDataType) : FractionalDataType :=
  match a, b with
  | Finite x, Finite y => Finite (x + y)%Qc
  | _, _ => NegInfinity
  end.
Definition Fltb (a b : FractionalDataType) : bool :=
  match a, b with
  | NegInfinity, Finite _ => true
  | Finite x, Finite y => Qcltb x y
  | _, NegInfinity => false
  end.

Section Training.
(** EbmStatistics.h is not part of the sources. *)
Variable ComputeNodeSplittingScore : Qc -> Z -> Qc.
Variable ComputeSmallChangeInRegressionPredictionForOneSegment : Qc -> Z -> Qc.
Variable ComputeSmallChangeInClassificationLogOddPredictionForOneSegment : Qc -> Qc -> Qc.
(** [IsRegression(countCompilerClassificationTargetStates)] and
    [GET_VECTOR_LENGTH(...)]. *)
Variable bRegression : bool.
Variable cVectorLength : Z.

Let GetTotals' := GetTotals (BinnedBucket_Zero cVectorLength) BinnedBucket_Add BinnedBucket_Subtract.

Fixpoint SweepScore (n : nat) (iVector : Z) (pTotalsLow pTotalsHigh : BinnedBucket)
  (splittingScore : Qc) : option Qc :=
  match n with
  | O => Some splittingScore
  | S n' =>
    sLow ← (if cCasesInBucket pTotalsLow =? 0 then Some 0%Qc
            else ps ← load (aPredictionStatistics pTotalsLow) iVector;
                 Some (ComputeNodeSplittingScore (sumResidualError ps) (cCasesInBucket pTotalsLow)));
    sHigh ← (if cCasesInBucket pTotalsHigh =? 0 then Some 0%Qc
             else ps ← load (aPredictionStatistics pTotalsHigh) iVector;
                  Some (ComputeNodeSplittingScore (sumResidualError ps) (cCasesInBucket pTotalsHigh)));
    SweepScore n' (iVector + 1) pTotalsLow pTotalsHigh (splittingScore + sLow + sHigh)%Qc
  end.

(** State of one sweep: [bestSplit], [iBestCut], the two buckets at
    [pBinnedBucketBestAndTemp] and the point array. *)
Record SweepState := {
  bestSplit : FractionalDataType;
  iBestCut : Z;
  pBest : BinnedBucket * BinnedBucket;
  aiPointCur : list Z }.

Fixpoint SweepLoop (n : nat) (iState : Z) (aBinnedBuckets : list BinnedBucket)
  (aStates : list Z) (directionVectorLow directionVectorHigh iDimensionSweep : Z)
  (st : SweepState) : option SweepState :=
  match n with
  | O => Some st
  | S n' =>
    aiPoint ← store (aiPointCur st) iDimensionSweep iState;
    pTotalsLow ← GetTotals' aBinnedBuckets aStates aiPoint directionVectorLow;
    pTotalsHigh ← GetTotals' aBinnedBuckets aStates aiPoint directionVectorHigh;
    splittingScore ← SweepScore (Z.to_nat cVectorLength) 0 pTotalsLow pTotalsHigh 0%Qc;
    SweepLoop n' (iState + 1) aBinnedBuckets aStates directionVectorLow directionVectorHigh
      iDimensionSweep
      (if Fltb (bestSplit st) (Finite splittingScore) then
         {| bestSplit := Finite splittingScore; iBestCut := iState;
            pBest := (pTotalsLow, pTotalsHigh); aiPointCur := aiPoint |}
       else
         {| bestSplit := bestSplit st; iBestCut := iBestCut st;
            pBest := pBest st; aiPointCur := aiPoint |})
  end.

(** [pBestIn] is what the two buckets at [pBinnedBucketBestAndTemp] hold on
    entry.  The answer is the returned score, [*piBestCut], those two buckets
    and the point array as the sweep leaves it. *)
Definition SweepMultiDiemensional (aBinnedBuckets : list BinnedBucket) (aStates : list Z)
  (aiPoint : list Z) (directionVectorLow iDimensionSweep : Z)
  (pBestIn : BinnedBucket * BinnedBucket)
  : option (FractionalDataType * Z * (BinnedBucket * BinnedBucket) * list Z) :=
  aiPoint0 ← store aiPoint iDimensionSweep 0;
  let directionVectorHigh := Z.lor directionVectorLow (Z.shiftl 1 iDimensionSweep) in
  cStates0 ← load aStates iDimensionSweep;
  st ← SweepLoop (Z.to_nat (size_t (cStates0 - 1))) 0 aBinnedBuckets aStates
         directionVectorLow directionVectorHigh iDimensionSweep
         {| bestSplit := NegInfinity; iBestCut := 0; pBest := pBestIn; aiPointCur := aiPoint0 |};
  Some (bestSplit st, iBestCut st, pBest st, aiPointCur st).

(** The running best of one primary axis: the cut triple and the four
    quadrant totals kept for it, next to the scratch buckets the two sweeps
    write their own best into. *)
Record FirstBest := {
  cutFirstBest : Z;
  cutFirstLowBest : Z;
  cutFirstHighBest : Z;
  pTotalsLowLowBest : BinnedBucket;
  pTotalsLowHighBest : BinnedBucket;
  pTotalsHighLowBest : BinnedBucket;
  pTotalsHighHighBest : BinnedBucket }.

Record TrainState := {
  bestSplittingScoreFirst : FractionalDataType;
  firstBest : FirstBest;
  bCut : bool;               (* this axis has taken the lead *)
  pScratchLow : BinnedBucket * BinnedBucket;
  pScratchHigh : BinnedBucket * BinnedBucket;
  aiStart : list Z }.

(** One primary axis: [iDimensionFirst] carries the primary cut, the sweeps
    run over [iDimensionSweep]; [directionVectorHighSide] selects the high
    side of the primary cut. *)
Fixpoint TrainFirstLoop (n : nat) (iState1 : Z) (aBinnedBuckets : list BinnedBucket)
  (aStates : list Z) (iDimensionFirst iDimensionSweep directionVectorHighSide : Z)
  (st : TrainState) : option TrainState :=
  match n with
  | O => Some st
  | S n' =>
    aiStart1 ← store (aiStart st) iDimensionFirst iState1;
    '(scoreLow, cutSecondLowBest, pLow, aiStart2) ←
      SweepMultiDiemensional aBinnedBuckets aStates aiStart1 0 iDimensionSweep (pScratchLow st);
    '(scoreHigh, cutSecondHighBest, pHigh, aiStart3) ←
      SweepMultiDiemensional aBinnedBuckets aStates aiStart2 directionVectorHighSide
        iDimensionSweep (pScratchHigh st);
    let splittingScore := Fplus (Fplus (Finite 0%Qc) scoreLow) scoreHigh in
    TrainFirstLoop n' (iState1 + 1) aBinnedBuckets aStates iDimensionFirst iDimensionSweep
      directionVectorHighSide
      (if Fltb (bestSplittingScoreFirst st) splittingScore then
         {| bestSplittingScoreFirst := splittingScore;
            firstBest := {| cutFirstBest := iState1;
                        cutFirstLowBest := cutSecondLowBest;
                        cutFirstHighBest := cutSecondHighBest;
                        pTotalsLowLowBest := fst pLow;
                        pTotalsLowHighBest := snd pLow;
                        pTotalsHighLowBest := fst pHigh;
                        pTotalsHighHighBest := snd pHigh |};
            bCut := true;
            pScratchLow := pLow; pScratchHigh := pHigh; aiStart := aiStart3 |}
       else
         {| bestSplittingScoreFirst := bestSplittingScoreFirst st;
            firstBest := firstBest st; bCut := bCut st;
            pScratchLow := pLow; pScratchHigh := pHigh; aiStart := aiStart3 |})
  end.

(** Writing the result into the output tensor. *)
Abbreviation Tensor := (SegmentedRegionCore (TValues := Qc)).

Variable uninitValue : nat -> Qc.
Variable uninitDivision : nat -> Z.
Variable realloc_fails : Z -> bool.

Definition SetDivision (t : Tensor) (iDimension k v : Z) : option Tensor :=
  pDimension ← load (m_aDimensions t) iDimension;
  aDiv ← store (aDivisions pDimension) k (ptrdiff_t v);
  aDims ← store (m_aDimensions t) iDimension
    {| cDivisions := cDivisions pDimension; aDivisions := aDiv;
       cDivisionCapacity := cDivisionCapacity pDimension |};
  Some (set_aDimensions t aDims).

Definition SetValue (t : Tensor) (k : Z) (v : Qc) : option Tensor :=
  aValues ← store (m_aValues t) k v;
  Some (set_aValues t aValues (m_cValueCapacity t)).

(** The return values of [SetCountDivisions] and [EnsureValueCapacity] are
    dropped by the caller. *)
Definition SetCountDivisions_ (t : Tensor) (iDimension cDiv : Z) : option Tensor :=
  r ← SetCountDivisions uninitDivision realloc_fails t iDimension cDiv;
  Some (r.2).
Definition EnsureValueCapacity_ (t : Tensor) (cValues : Z) : Tensor :=
  (EnsureValueCapacity uninitValue realloc_fails t cValues).2.

(** Cuts: [iDimensionFirst] gets the primary cut, [iDimensionSweep] the one
    or two secondary cuts. *)
Definition TrainWriteCuts (t : Tensor) (iDimensionFirst iDimensionSweep : Z) (b : FirstBest)
  : option Tensor :=
  t1 ← SetCountDivisions_ t iDimensionFirst 1;
  t2 ← SetDivision t1 iDimensionFirst 0 (cutFirstBest b);
  if cutFirstLowBest b <? cutFirstHighBest b then
    let t3 := EnsureValueCapacity_ t2 (size_t (cVectorLength * 6)) in
    t4 ← SetCountDivisions_ t3 iDimensionSweep 2;
    t5 ← SetDivision t4 iDimensionSweep 0 (cutFirstLowBest b);
    SetDivision t5 iDimensionSweep 1 (cutFirstHighBest b)
  else if cutFirstHighBest b <? cutFirstLowBest b then
    let t3 := EnsureValueCapacity_ t2 (size_t (cVectorLength * 6)) in
    t4 ← SetCountDivisions_ t3 iDimensionSweep 2;
    t5 ← SetDivision t4 iDimensionSweep 0 (cutFirstHighBest b);
    SetDivision t5 iDimensionSweep 1 (cutFirstLowBest b)
  else
    t3 ← SetCountDivisions_ t2 iDimensionSweep 1;
    let t4 := EnsureValueCapacity_ t3 (size_t (cVectorLength * 4)) in
    SetDivision t4 iDimensionSweep 0 (cutFirstLowBest b).

Definition TrainPrediction (pTotals : BinnedBucket) (iVector : Z) : option Qc :=
  if bRegression then
    if cCasesInBucket pTotals =? 0 then Some 0%Qc
    else
      ps ← load (aPredictionStatistics pTotals) iVector;
      Some (ComputeSmallChangeInRegressionPredictionForOneSegment
              (sumResidualError ps) (cCasesInBucket pTotals))
  else
    ps ← load (aPredictionStatistics pTotals) iVector;
    Some (ComputeSmallChangeInClassificationLogOddPredictionForOneSegment
            (sumResidualError ps) (sumDenominator ps)).

Fixpoint SetValues (t : Tensor) (k : Z) (iVector : Z) (vs : list Qc) : option Tensor :=
  match vs with
  | [] => Some t
  | v :: vs' =>
    t' ← SetValue t (size_t (size_t (k * cVectorLength) + iVector)) v;
    SetValues t' (k + 1) iVector vs'
  end.

(** The value table of the branch [bCutFirst2] (primary cut on dimension 1,
    secondary cuts on dimension 0). *)
Definition TrainLayout2 (b : FirstBest) (ll lh hl hh : Qc) : list Qc :=
  if cutFirstLowBest b <? cutFirstHighBest b then [ll; lh; lh; hl; hl; hh]
  else if cutFirstHighBest b <? cutFirstLowBest b then [ll; ll; lh; hl; hh; hh]
  else [ll; lh; hl; hh].

(** The value table of the other branch (primary cut on dimension 0). *)
Definition TrainLayout1 (b : FirstBest) (ll lh hl hh : Qc) : list Qc :=
  if cutFirstLowBest b <? cutFirstHighBest b then [ll; hl; lh; hl; lh; hh]
  else if cutFirstHighBest b <? cutFirstLowBest b then [ll; hl; ll; hh; lh; hh]
  else [ll; hl; lh; hh].

Fixpoint TrainWriteValues (n : nat) (iVector : Z) (t : Tensor) (bCutFirst2 : bool)
  (b : FirstBest) : option Tensor :=
  match n with
  | O => Some t
  | S n' =>
    predictionLowLow ← TrainPrediction (pTotalsLowLowBest b) iVector;
    predictionLowHigh ← TrainPrediction (pTotalsLowHighBest b) iVector;
    predictionHighLow ← TrainPrediction (pTotalsHighLowBest b) iVector;
    predictionHighHigh ← TrainPrediction (pTotalsHighHighBest b) iVector;
    t' ← SetValues t 0 iVector
           ((if bCutFirst2 then TrainLayout2 else TrainLayout1) b
              predictionLowLow predictionLowHigh predictionHighLow predictionHighHigh);
    TrainWriteValues n' (iVector + 1) t' bCutFirst2 b
  end.

(** Indeterminate initial contents of locals and of the [malloc]ed scratch
    buckets. *)
Variable uninitBucket : BinnedBucket.
Variable uninitIndex : Z.

Fixpoint TrainCountBuckets (aStates : list Z) (cTotalBuckets cTotalBucketsMainSpace : Z) : Z * Z :=
  match aStates with
  | [] => (cTotalBuckets, cTotalBucketsMainSpace)
  | cStates0 :: rest =>
    let m := size_t (cTotalBucketsMainSpace * cStates0) in
    TrainCountBuckets rest (size_t (cTotalBuckets + m)) m
  end.

(** [aBinned] is the main space of the histogram as
    [RecursiveBinDataSetTraining], which is not part of the sources, leaves
    it; [aStates] lists [m_cStates] of the combination's attributes. *)
Definition TrainMultiDimensional (aBinned : list BinnedBucket) (aStates : list Z)
  (pSmallChangeToModelOverwriteSingleSamplingSet : Tensor) : option (bool * Tensor) :=
  let '(cTotalBuckets, cTotalBucketsMainSpace) := TrainCountBuckets aStates 1 1 in
  let aBinnedBuckets0 :=
    take (Z.to_nat cTotalBucketsMainSpace) aBinned
    ++ replicate (Z.to_nat (cTotalBuckets - cTotalBucketsMainSpace)) (BinnedBucket_Zero cVectorLength) in
  if Z.of_nat (length aBinned) <? cTotalBucketsMainSpace then None else
  aBinnedBuckets ← BuildFastTotals (BinnedBucket_Zero cVectorLength) BinnedBucket_Add
                      aBinnedBuckets0 aStates cTotalBucketsMainSpace;
  if Z.of_nat (length aStates) =? 2 then
    cStatesDimension1 ← load aStates 0;
    cStatesDimension2 ← load aStates 1;
    let uninitFirst :=
      {| cutFirstBest := uninitIndex; cutFirstLowBest := uninitIndex;
         cutFirstHighBest := uninitIndex;
         pTotalsLowLowBest := uninitBucket; pTotalsLowHighBest := uninitBucket;
         pTotalsHighLowBest := uninitBucket; pTotalsHighHighBest := uninitBucket |} in
    st1 ← TrainFirstLoop (Z.to_nat (size_t (cStatesDimension1 - 1))) 0 aBinnedBuckets aStates 0 1 1
            {| bestSplittingScoreFirst := NegInfinity; firstBest := uninitFirst; bCut := false;
               pScratchLow := (uninitBucket, uninitBucket);
               pScratchHigh := (uninitBucket, uninitBucket);
               aiStart := replicate (Z.to_nat k_cDimensionsMax) uninitIndex |};
    st2 ← TrainFirstLoop (Z.to_nat (size_t (cStatesDimension2 - 1))) 0 aBinnedBuckets aStates 1 0 2
            {| bestSplittingScoreFirst := bestSplittingScoreFirst st1; firstBest := uninitFirst;
               bCut := false;
               pScratchLow := (uninitBucket, uninitBucket);
               pScratchHigh := (uninitBucket, uninitBucket);
               aiStart := aiStart st1 |};
    if bCut st2 then
      t1 ← TrainWriteCuts pSmallChangeToModelOverwriteSingleSamplingSet 1 0 (firstBest st2);
      t2 ← TrainWriteValues (Z.to_nat cVectorLength) 0 t1 true (firstBest st2);
      Some (false, t2)
    else
      t1 ← TrainWriteCuts pSmallChangeToModelOverwriteSingleSamplingSet 0 1 (firstBest st1);
      t2 ← TrainWriteValues (Z.to_nat cVectorLength) 0 t1 false (firstBest st1);
      Some (false, t2)
  else None.

End Training.

(** * DataSetByAttributeCombination.cpp *)

Definition k_cBitsForStorageType : Z := 64.
(** [GetCountBits]; the division by zero has no defined behaviour. *)
Definition GetCountBits (cItemsBitPacked : Z) : option Z :=
  if cItemsBitPacked =? 0 then None else Some (k_cBitsForStorageType / cItemsBitPacked).
Definition IsMultiplyError (num1 num2 : Z) : bool :=
  negb (num1 =? 0) && ((size_t (size_t (2 ^ 64 - 1 - num1) + 1)) / num1 <? num2).

Record AttributeInternalCore := {
  m_cStates : Z;
  m_iAttributeData : Z }.

Record AttributeCombinationCore := {
  m_cItemsPerBitPackDataUnit : Z;
  m_AttributeCombinationEntry : list AttributeInternalCore }.
Definition m_cAttributes (c : AttributeCombinationCore) : Z :=
  Z.of_nat (length (m_AttributeCombinationEntry c)).

Record InputDataPointerAndCountStates := {
  m_pInputData : Z;        (* offset inside aInputDataFrom *)
  m_cStatesDim : Z }.

Section ConstructInputData.
(** Allocator oracle: [malloc_fails n] says that [malloc] of [n] bytes
    returns [nullptr]. *)
Variable malloc_fails : Z -> bool.

(** The innermost [do ... while] over the dimensions of one case. *)
Fixpoint ConstructTensorIndex (dimensionInfo : list InputDataPointerAndCountStates)
  (aInputDataFrom : list Z) (tensorMultiple tensorIndex : Z)
  : option (list InputDataPointerAndCountStates * Z) :=
  match dimensionInfo with
  | [] => Some ([], tensorIndex)
  | pDimensionInfo :: rest =>
    inputData ← load aInputDataFrom (m_pInputData pDimensionInfo);
    let tensorIndex' := size_t (tensorIndex + size_t (tensorMultiple * size_t inputData)) in
    let tensorMultiple' := size_t (tensorMultiple * m_cStatesDim pDimensionInfo) in
    '(rest', r) ← ConstructTensorIndex rest aInputDataFrom tensorMultiple' tensorIndex';
    Some ({| m_pInputData := m_pInputData pDimensionInfo + 1;
             m_cStatesDim := m_cStatesDim pDimensionInfo |} :: rest', r)
  end.

(** The [do ... while(shiftEnd != shift)] loop that fills one word. *)
Fixpoint ConstructWord (fuel : nat) (dimensionInfo : list InputDataPointerAndCountStates)
  (aInputDataFrom : list Z) (cBitsPerItemMax shiftEnd bits shift : Z)
  : option (list InputDataPointerAndCountStates * Z) :=
  match fuel with
  | O => None
  | S fuel' =>
    match dimensionInfo with
    | [] => None
    | _ =>
      '(dimensionInfo', tensorIndex) ← ConstructTensorIndex dimensionInfo aInputDataFrom 1 0;
      if k_cBitsForSizeTCore <=? shift then None
      else
        let bits' := Z.lor bits (size_t (Z.shiftl tensorIndex shift)) in
        let shift' := size_t (shift + cBitsPerItemMax) in
        if negb (shiftEnd =? shift')
        then ConstructWord fuel' dimensionInfo' aInputDataFrom cBitsPerItemMax shiftEnd bits' shift'
        else Some (dimensionInfo', bits')
    end
  end.

(** [while(pInputDataTo < pInputDataToLast)]: the [n] full words. *)
Fixpoint ConstructWords (n : nat) (dimensionInfo : list InputDataPointerAndCountStates)
  (aInputDataFrom : list Z) (cBitsPerItemMax shiftEnd : Z)
  : option (list InputDataPointerAndCountStates * list Z) :=
  match n with
  | O => Some (dimensionInfo, [])
  | S n' =>
    '(dimensionInfo', bits) ←
      ConstructWord (Z.to_nat k_cBitsForSizeTCore) dimensionInfo aInputDataFrom
        cBitsPerItemMax shiftEnd 0 0;
    '(dimensionInfo'', words) ←
      ConstructWords n' dimensionInfo' aInputDataFrom cBitsPerItemMax shiftEnd;
    Some (dimensionInfo'', bits :: words)
  end.

(** One pass of the outer [do ... while] over the combinations.  The inner
    [None] stands for the jump to [free_all]. *)
Definition ConstructInputDataOne (pAttributeCombination : AttributeCombinationCore)
  (cCases : Z) (aInputDataFrom : list Z) : option (option (list Z)) :=
  let cItemsPerBitPackDataUnit := m_cItemsPerBitPackDataUnit pAttributeCombination in
  cBitsPerItemMax ← GetCountBits cItemsPerBitPackDataUnit;
  let cDataUnits := size_t (size_t (cCases - 1) / cItemsPerBitPackDataUnit + 1) in
  if IsMultiplyError 8 cDataUnits then Some None
  else
    let cBytesData := size_t (8 * cDataUnits) in
    if malloc_fails cBytesData then Some None
    else
      let dimensionInfo :=
        (λ pAttribute,
           {| m_pInputData := size_t (m_iAttributeData pAttribute * cCases);
              m_cStatesDim := m_cStates pAttribute |})
        <$> m_AttributeCombinationEntry pAttributeCombination in
      let shiftEnd := size_t (cBitsPerItemMax * cItemsPerBitPackDataUnit) in
      '(dimensionInfo', words) ←
        ConstructWords (Z.to_nat (cDataUnits - 1)) dimensionInfo aInputDataFrom
          cBitsPerItemMax shiftEnd;
      let shiftEndLast :=
        size_t (cBitsPerItemMax * size_t (size_t (cCases - 1) mod cItemsPerBitPackDataUnit + 1)) in
      '(_, bitsLast) ←
        ConstructWord (Z.to_nat k_cBitsForSizeTCore) dimensionInfo' aInputDataFrom
          cBitsPerItemMax shiftEndLast 0 0;
      Some (Some (words ++ [bitsLast])).

Fixpoint ConstructInputDataLoop (apAttributeCombination : list AttributeCombinationCore)
  (cCases : Z) (aInputDataFrom : list Z) : option (option (list (list Z))) :=
  match apAttributeCombination with
  | [] => Some (Some [])
  | pAttributeCombination :: rest =>
    r ← ConstructInputDataOne pAttributeCombination cCases aInputDataFrom;
    match r with
    | None => Some None
    | Some pInputDataTo =>
      r' ← ConstructInputDataLoop rest cCases aInputDataFrom;
      Some (match r' with
            | Some aaInputDataTo => Some (pInputDataTo :: aaInputDataTo)
            | None => None
            end)
    end
  end.

(** The answer [Some None] is the [nullptr] of a failed allocation. *)
Definition ConstructInputData (apAttributeCombination : list AttributeCombinationCore)
  (cCases : Z) (aInputDataFrom : list Z) : option (option (list (list Z))) :=
  match apAttributeCombination with
  | [] => None
  | _ =>
    if malloc_fails (size_t (8 * Z.of_nat (length apAttributeCombination))) then Some None
    else ConstructInputDataLoop apAttributeCombination cCases aInputDataFrom
  end.

End ConstructInputData.

(** * SamplingWithReplacement.cpp *)

Section Sampling.
(** RandomStream.h is not part of the sources: [Next s min max] answers the
    drawn number and the next state of the stream, or [None] when it throws. *)
Variable RandomStream : Type.
Variable Next : RandomStream -> Z -> Z -> option (Z * RandomStream).
Variable malloc_fails : Z -> bool.
(** [new (std::nothrow)] of the result object fails. *)
Variable new_fails : bool.








End Sampling.

(** * Basic facts about machine integers and memory *)


Lemma size_t_range z : 0 <= size_t z < 2 ^ 64.
Proof. unfold size_t, k_cBitsForSizeTCore. apply Z.mod_pos_bound. reflexivity. Qed.

Lemma ptrdiff_t_small z : - 2 ^ 63 <= z < 2 ^ 63 -> ptrdiff_t z = z.
Proof.
  intros H. unfold ptrdiff_t, k_cBitsForSizeTCore.
  replace (64 - 1) with 63 by reflexivity.
  rewrite Z.mod_small; [lia|].
  change (2 ^ 64) with (2 * 2 ^ 63). lia.
Qed.

Lemma ptrdiff_t_size_t_m1 : ptrdiff_t (size_t (-1)) = -1.
Proof. reflexivity. Qed.

Lemma load_Some {A} (a : list A) i x :
  load a i = Some x <-> 0 <= i /\ a !! Z.to_nat i = Some x.
Proof.
  unfold load. destruct (Z.ltb_spec i 0); split; intros H1; try discriminate.
  - destruct H1; lia.
  - split; [lia | exact H1].
  - destruct H1 as [_ H1]. exact H1.
Qed.


Lemma load_lt {A} (a : list A) i x : load a i = Some x -> 0 <= i < Z.of_nat (length a).
Proof.
  intros H. apply load_Some in H. destruct H as [H0 H].
  apply lookup_lt_Some in H. lia.
Qed.



Lemma store_inv {A} (a a' : list A) i x :
  store a i x = Some a' -> 0 <= i < Z.of_nat (length a) /\ a' = <[Z.to_nat i := x]> a.
Proof.
  unfold store. intros H.
  destruct (Z.leb_spec 0 i); [|discriminate].
  destruct (Z.ltb_spec i (Z.of_nat (length a))); [|discriminate].
  simpl in H. injection H as <-. split; [lia | reflexivity].
Qed.

Lemma load_store_eq {A} (a : list A) i x :
  0 <= i < Z.of_nat (length a) -> load (<[Z.to_nat i := x]> a) i = Some x.
Proof.
  intros H. apply load_Some. split; [lia|].
  apply list_lookup_insert_eq. lia.
Qed.

Lemma load_store_ne {A} (a : list A) i j x :
  0 <= i -> i <> j -> load (<[Z.to_nat i := x]> a) j = load a j.
Proof.
  intros Hi Hne. unfold load. destruct (Z.ltb_spec j 0); [reflexivity|].
  apply list_lookup_insert_ne. lia.
Qed.





(** * Sampling sets *)

Section SamplingFacts.
Variable RandomStream : Type.
Variable Next : RandomStream -> Z -> Z -> option (Z * RandomStream).
Variable malloc_fails : Z -> bool.
Variable new_fails : bool.



End SamplingFacts.



(** * Segmented tensors: Expand on an expanded tensor *)

Section ExpandNoop.
Context {TValues : Type}.
Variable uninitValue : nat -> TValues.
Variable uninitDivision : nat -> Z.
Variable realloc_fails : Z -> bool.

Lemma Expand_of_expanded (t : SegmentedRegionCore) (acDivisionsPlusOne : list Z) :
  m_bExpanded t = true ->
  Expand uninitValue uninitDivision realloc_fails t acDivisionsPlusOne = Some (false, t).
Proof. intros H. unfold Expand. rewrite H. reflexivity. Qed.

Lemma Expand_success_expanded (t t' : SegmentedRegionCore) (acDivisionsPlusOne : list Z) :
  Expand uninitValue uninitDivision realloc_fails t acDivisionsPlusOne = Some (false, t') ->
  m_bExpanded t' = true.
Proof.
  unfold Expand. destruct (m_bExpanded t) eqn:Hb.
  - intros [= <-]. exact Hb.
  - destruct (m_cDimensions t <=? 0); [discriminate|].
    destruct (Z.of_nat (length (m_aDimensions t)) <? m_cDimensions t); [discriminate|].
    destruct (ExpandInit _ _ _ _) as [[[stack c1] cn]|]; [|discriminate]. simpl.
    destruct (EnsureValueCapacity _ _ _ _) as [[] t1]; simpl; [discriminate|].
    destruct (ExpandLoop _ _ _ _ _ _ _) as [aValues|]; [|discriminate]. simpl.
    destruct (ExpandDivisions _ _ _ _ _ _) as [[[] t3]|]; simpl; try discriminate.
    intros [= <-]. reflexivity.
Qed.

End ExpandNoop.

(** C9.  [Expand] on a tensor that is already expanded returns success at
    once and leaves the tensor (cut arrays, value grid, flag) as it is, for
    any region counts; so a second [Expand] after a successful one changes
    nothing. *)
Theorem Expand_twice_is_noop :
  forall (TValues : Type) (uninitValue : nat -> TValues) (uninitDivision : nat -> Z)
         (realloc_fails : Z -> bool)
         (t : SegmentedRegionCore (TValues := TValues)) (acDivisionsPlusOne : list Z),
    (m_bExpanded t = true ->
     Expand uninitValue uninitDivision realloc_fails t acDivisionsPlusOne = Some (false, t))
    /\ (forall t' ac',
          Expand uninitValue uninitDivision realloc_fails t acDivisionsPlusOne = Some (false, t') ->
          Expand uninitValue uninitDivision realloc_fails t' ac' = Some (false, t')).
Proof.
  intros TValues uv ud rf t ac. split.
  - apply Expand_of_expanded.
  - intros t' ac' H. apply Expand_of_expanded.
    exact (Expand_success_expanded uv ud rf t t' ac H).
Qed.

Definition scenario5_tensor : SegmentedRegionCore (TValues := Z) :=
  {| m_cValueCapacity := 2; m_cVectorLength := 1; m_cDimensionsMax := 1; m_cDimensions := 1;
     m_aValues := [10; 20]; m_bExpanded := false;
     m_aDimensions := [ {| cDivisions := 1; aDivisions := [2]; cDivisionCapacity := 1 |} ] |}.

Definition scenario5_expanded : SegmentedRegionCore (TValues := Z) :=
  {| m_cValueCapacity := 7; m_cVectorLength := 1; m_cDimensionsMax := 1; m_cDimensions := 1;
     m_aValues := [10; 10; 10; 20; 20; 0; 0]; m_bExpanded := true;
     m_aDimensions := [ {| cDivisions := 4; aDivisions := [0; 1; 2; 3; 0; 0];
                           cDivisionCapacity := 6 |} ] |}.

Lemma Expand_twice_is_noop_witness :
  Expand (fun _ => 0) (fun _ => 0) (fun _ => false) scenario5_tensor [5]
  = Some (false, scenario5_expanded)
  /\ Expand (fun _ => 0) (fun _ => 0) (fun _ => false) scenario5_expanded [5]
     = Some (false, scenario5_expanded).
Proof.
  split; [reflexivity|].
  apply (Expand_twice_is_noop Z (fun _ => 0) (fun _ => 0) (fun _ => false)
           scenario5_expanded [5]).
  reflexivity.
Defined.
